(** * Learning a communication channel (htbab_tutorials/ch6-learn.ipynb)

    The notebook is a configuration script: it creates ensembles, nodes and
    connections inside a [nengo.Network] and attaches a learning rule.  This
    development embeds that script as a computation over the network under
    construction and proves what the constructed network looks like.  The
    simulator itself (neurons, synapses, solvers, learning-rule integration)
    belongs to the framework and is not modelled. *)

From Stdlib Require Import ZArith Reals Lra Lia.
From Stdlib Require Import SpecFloat.
From stdpp Require Import gmap strings list.

(** ** Python floats: IEEE-754 binary64 *)

Module pyfloat.

Abbreviation float := spec_float.

Definition prec : Z := 53.
Definition emax : Z := 1024.

Definition of_Z (z : Z) : float := binary_normalize prec emax z 0 false.

(** A decimal literal with [places] digits after the point, [digits] being
    its digits read as an integer: [2.0] is [decimal 20 1], [0.02] is
    [decimal 2 2], [1e-10] is [decimal 1 10].  Both operands of the division
    are exact in binary64 for the literals of the notebook, so the correctly
    rounded quotient is the float Python reads. *)
Definition decimal (digits : Z) (places : nat) : float :=
  SFdiv prec emax (of_Z digits) (of_Z (10 ^ Z.of_nat places)).

Definition ltb (x y : float) : bool := SFltb x y.

(** Python's [x > y] on floats. *)
Definition gtb (x y : float) : bool := ltb y x.

Definition valid (x : float) : bool := valid_binary prec emax x.

Definition is_finite (x : float) : bool :=
  match x with
  | S754_zero _ | S754_finite _ _ _ => true
  | S754_infinity _ | S754_nan => false
  end.

(** The real number a finite float stands for. *)
Definition to_R (x : float) : R :=
  match x with
  | S754_finite s m e => IZR (cond_Zopp s (Zpos m)) * powerRZ 2 e
  | _ => 0
  end.

End pyfloat.

Import pyfloat.

(** ** The framework's object model, as far as the notebook touches it *)

Module nengo.

Inductive NeuronType := Direct.

Record Ensemble := {
  n_neurons : nat;
  dimensions : nat;
  neuron_type : option NeuronType   (* [None]: the framework's default *)
}.

(** [WhiteSignal(period, high=...)] *)
Record Process := WhiteSignal { period : Z; high : Z }.

Inductive Output :=
  | OutProcess (p : Process)
  | OutFunction (f : float -> float).   (* a function of simulation time *)

Record Node := { output : Output }.

Inductive Solver := LstsqL2 (weights : bool).

Inductive LearningRuleType :=
  | PES (learning_rate : option float)
  | BCM (learning_rate : option float).

Inductive Transform :=
  | Scalar (k : Z)
  | Matrix (rows : list (list Z)).

(** Python objects are referred to by identity: an object is the index at
    which its constructor registered it in the enclosing network. *)
Inductive Obj :=
  | EnsembleRef (i : nat)
  | NeuronsRef (i : nat)                      (* [ens.neurons] *)
  | NodeRef (i : nat)
  | ConnectionRef (i : nat)
  | LearningRuleRef (c : nat) (key : string). (* [conn.learning_rule[key]] *)

#[global] Instance Obj_eq_dec : EqDecision Obj.
Proof. solve_decision. Defined.

Section Objects.

(** State of the Python process that a user-supplied [function=] may read
    and update when it is called (here: NumPy's global generator). *)
Context {World : Type}.

Definition Callable : Type := list float -> World -> list float * World.

Record Connection := {
  pre : Obj;
  post : Obj;
  function : option Callable;
  transform : option Transform;
  synapse : option float;
  solver : option Solver;
  learning_rule_type : option (gmap string LearningRuleType)
}.

Record Network := {
  label : string;
  seed : Z;
  ensembles : list Ensemble;
  nodes : list Node;
  connections : list Connection
}.

(** [nengo.Network(label=..., seed=...)] *)
Definition new_Network (label : string) (seed : Z) : Network :=
  {| label := label; seed := seed; ensembles := []; nodes := []; connections := [] |}.

(** Code under [with model:] runs against the network being built and may
    raise. *)
Definition Build (A : Type) : Type := Network -> option (A * Network).

#[global] Instance Build_ret : MRet Build := fun A a net => Some (a, net).

#[global] Instance Build_bind : MBind Build := fun A B f m net =>
  match m net with
  | Some (a, net') => f a net'
  | None => None
  end.

(** [nengo.Ensemble(n_neurons, dimensions=..., neuron_type=...)] *)
Definition new_Ensemble (n d : nat) (nt : option NeuronType) : Build Obj := fun net =>
  Some (EnsembleRef (length (ensembles net)),
        {| label := label net; seed := seed net;
           ensembles := ensembles net ++ [ {| n_neurons := n; dimensions := d; neuron_type := nt |} ];
           nodes := nodes net; connections := connections net |}).

(** [nengo.Node(output)] *)
Definition new_Node (out : Output) : Build Obj := fun net =>
  Some (NodeRef (length (nodes net)),
        {| label := label net; seed := seed net; ensembles := ensembles net;
           nodes := nodes net ++ [ {| output := out |} ];
           connections := connections net |}).

(** [nengo.Connection(pre, post, function=..., transform=..., synapse=...,
    solver=...)]; an argument the call leaves out is [None]. *)
Definition new_Connection (pre post : Obj) (function : option Callable)
    (transform : option Transform) (synapse : option float) (solver : option Solver)
    : Build Obj := fun net =>
  Some (ConnectionRef (length (connections net)),
        {| label := label net; seed := seed net; ensembles := ensembles net;
           nodes := nodes net;
           connections := connections net ++
             [ {| pre := pre; post := post; function := function; transform := transform;
                  synapse := synapse; solver := solver; learning_rule_type := None |} ] |}).

(** [conn.learning_rule_type = rules] *)
Definition set_learning_rule_type (c : Obj) (rules : gmap string LearningRuleType)
    : Build unit := fun net =>
  match c with
  | ConnectionRef i =>
      match connections net !! i with
      | Some k =>
          Some (tt,
                {| label := label net; seed := seed net; ensembles := ensembles net;
                   nodes := nodes net;
                   connections :=
                     <[ i := {| pre := pre k; post := post k; function := function k;
                                transform := transform k; synapse := synapse k;
                                solver := solver k; learning_rule_type := Some rules |} ]>
                       (connections net) |})
      | None => None
      end
  | _ => None
  end.

(** [conn.learning_rule[key]] *)
Definition learning_rule (c : Obj) (key : string) : Build Obj := fun net =>
  match c with
  | ConnectionRef i =>
      match connections net !! i with
      | Some k =>
          match learning_rule_type k with
          | Some rules =>
              match rules !! key with
              | Some _ => Some (LearningRuleRef i key, net)
              | None => None
              end
          | None => None
          end
      | None => None
      end
  | _ => None
  end.

(** [ens.neurons] *)
Definition neurons (e : Obj) : Build Obj := fun net =>
  match e with
  | EnsembleRef i =>
      match ensembles net !! i with
      | Some _ => Some (NeuronsRef i, net)
      | None => None
      end
  | _ => None
  end.

(** [ens.n_neurons] *)
Definition get_n_neurons (e : Obj) : Build nat := fun net =>
  match e with
  | EnsembleRef i =>
      match ensembles net !! i with
      | Some ens => Some (n_neurons ens, net)
      | None => None
      end
  | _ => None
  end.

(** *** Reading a network *)

Definition ensemble_of (net : Network) (o : Obj) : option Ensemble :=
  match o with
  | EnsembleRef i => ensembles net !! i
  | _ => None
  end.

Definition node_of (net : Network) (o : Obj) : option Node :=
  match o with
  | NodeRef i => nodes net !! i
  | _ => None
  end.

Definition connection_of (net : Network) (o : Obj) : option Connection :=
  match o with
  | ConnectionRef i => connections net !! i
  | _ => None
  end.

Definition incoming (net : Network) (tgt : Obj) : list Connection :=
  filter (fun c => post c = tgt) (connections net).

Definition outgoing (net : Network) (src : Obj) : list Connection :=
  filter (fun c => pre c = src) (connections net).

(** Connections that carry a learning rule. *)
Definition learned (net : Network) : list Connection :=
  filter (fun c => is_Some (learning_rule_type c)) (connections net).

(** *** Ideal signals

    What a connection with no [function=] delivers when the object at its
    source puts out the value [val]: the source's value through the linear
    transform, before any synaptic filtering and without neural noise.  All
    signal sources of the notebook are one-dimensional. *)

Definition delivered (val : Obj -> R) (c : Connection) : option R :=
  match function c, transform c with
  | None, Some (Scalar k) => Some (IZR k * val (pre c))%R
  | _, _ => None
  end.

Fixpoint total (xs : list (option R)) : option R :=
  match xs with
  | [] => Some 0%R
  | x :: rest =>
      match x, total rest with
      | Some a, Some b => Some (a + b)%R
      | _, _ => None
      end
  end.

(** The value the connections into [tgt] ask it to represent. *)
Definition decoded_input (net : Network) (val : Obj -> R) (tgt : Obj) : option R :=
  total (delivered val <$> incoming net tgt).

Definition dot (row : list Z) (x : list R) : R :=
  foldr Rplus 0%R (zip_with (fun w v => IZR w * v)%R row x).

(** Row [i] of a matrix transform applied to the source's value: the output
    of the connection at neuron [i].  The framework goes on to filter it
    through the synapse and to scale it by the gain of the neuron before it
    enters the neuron; neither is the notebook's. *)
Definition delivered_to_neuron (val : Obj -> R) (i : nat) (c : Connection) : option R :=
  match function c, transform c with
  | None, Some (Matrix rows) => (fun row => dot row [val (pre c)]) <$> rows !! i
  | _, _ => None
  end.

(** What the connections into [tgt] put out at neuron [i], summed. *)
Definition neuron_input (net : Network) (val : Obj -> R) (tgt : Obj) (i : nat)
    : option R :=
  total (delivered_to_neuron val i <$> incoming net tgt).

(** *** Evaluating a connection's function

    The initial solve of a connection with a [function=] calls the function
    once per evaluation point, in order; the calls share the process state. *)
Fixpoint eval_function (f : Callable) (xs : list (list float)) (w : World)
    : list (list float) * World :=
  match xs with
  | [] => ([], w)
  | x :: rest =>
      let '(y, w1) := f x w in
      let '(ys, w2) := eval_function f rest w1 in
      (y :: ys, w2)
  end.



(** *** Dimensions

    Two sizes are the framework's and not the notebook's: the output size of
    a node wrapping a process that was given no [size_out], and the size of
    the error signal a learning rule expects, as a function of the output
    size of the connection it modifies. *)
Section Sizes.

Variable default_size_out : nat.
Variable rule_size_in : nat -> LearningRuleType -> nat.

Definition object_size (net : Network) (o : Obj) : option nat :=
  match o with
  | EnsembleRef i => dimensions <$> ensembles net !! i
  | NeuronsRef i => n_neurons <$> ensembles net !! i
  | _ => None
  end.

Definition size_out (net : Network) (o : Obj) : option nat :=
  match o with
  | NodeRef i =>
      (fun n => match output n with
                | OutProcess _ => default_size_out
                | OutFunction _ => 1   (* a scalar-valued function of time *)
                end) <$> nodes net !! i
  | _ => object_size net o
  end.

Definition size_in (net : Network) (o : Obj) : option nat :=
  match o with
  | LearningRuleRef c key =>
      match connections net !! c with
      | Some k =>
          match learning_rule_type k with
          | Some rules =>
              match rules !! key, object_size net (post k) with
              | Some r, Some d => Some (rule_size_in d r)
              | _, _ => None
              end
          | None => None
          end
      | None => None
      end
  | _ => object_size net o
  end.



(** The check a connection has to pass: the source's size, through the
    function if there is one, then through the transform, is the target's
    size. *)
Definition dims_match (net : Network) (c : Connection) : Prop :=
  exists n_pre n_mid n_post,
    size_out net (pre c) = Some n_pre /\
    size_in net (post c) = Some n_post /\
    match function c with
    | None => n_mid = n_pre
    | Some f => forall x w, length x = n_pre -> length (fst (f x w)) = n_mid
    end /\
    match transform c with
    | None | Some (Scalar _) => n_mid = n_post
    | Some (Matrix rows) =>
        length rows = n_post /\ Forall (fun row => length row = n_mid) rows
    end.

End Sizes.

(** *** References

    An object is registered in a network when its index is taken there; a
    learning rule, when its connection is there and carries a rule under
    that key. *)
Definition registered (net : Network) (o : Obj) : Prop :=
  match o with
  | EnsembleRef i | NeuronsRef i => i < length (ensembles net)
  | NodeRef i => i < length (nodes net)
  | ConnectionRef i => i < length (connections net)
  | LearningRuleRef c key =>
      exists k rules,
        connections net !! c = Some k /\
        learning_rule_type k = Some rules /\
        is_Some (rules !! key)
  end.

(** Every connection starts and ends at an object of the network. *)
Definition well_formed (net : Network) : Prop :=
  forall k, k ∈ connections net -> registered net (pre k) /\ registered net (post k).

(** The object that sits [e] ensembles, [n] nodes or [c] connections
    further on. *)
Definition shift_obj (e n c : nat) (o : Obj) : Obj :=
  match o with
  | EnsembleRef i => EnsembleRef (e + i)
  | NeuronsRef i => NeuronsRef (e + i)
  | NodeRef i => NodeRef (n + i)
  | ConnectionRef i => ConnectionRef (c + i)
  | LearningRuleRef k key => LearningRuleRef (c + k) key
  end.

Definition shift_connection (e n c : nat) (k : Connection) : Connection :=
  {| pre := shift_obj e n c (pre k); post := shift_obj e n c (post k);
     function := function k; transform := transform k; synapse := synapse k;
     solver := solver k; learning_rule_type := learning_rule_type k |}.

End Objects.

Arguments Connection : clear implicits.
Arguments Network : clear implicits.
Arguments Build : clear implicits.

End nengo.

(** ** A concrete generator

    A linear congruential generator with samples in [0, 1), to run the
    development on: the statements below hold for any generator. *)

Module lcg.

Definition step (g : Z) : Z := (1103515245 * g + 12345) mod 2 ^ 31.

Definition sample (g : Z) : float := SFdiv prec emax (of_Z g) (of_Z (2 ^ 31)).

Fixpoint random (size : nat) (g : Z) : list float * Z :=
  match size with
  | O => ([], g)
  | S k =>
      let g1 := step g in
      let '(ys, g2) := random k g1 in
      (sample g1 :: ys, g2)
  end.

End lcg.

(** ** The notebook *)

Module ch6_learn.

Import nengo.

(** [def inhib(t): return 2.0 if t > 15.0 else 0.0] *)
Definition inhib (t : float) : float :=
  if gtb t (decimal 150 1) then decimal 20 1 else decimal 0 1.

(** The variables the second code cell binds. *)
Record Locals := {
  pre : Obj; post : Obj; error : Obj; actual_error : Obj;
  conn : Obj; error_conn : Obj; input : Obj; inhibit : Obj
}.

Section NumpyRandom.

(** NumPy's global generator: its state, and [np.random.random(size)], which
    returns [size] samples and advances the state. *)
Variable G : Type.
Variable np_random_random : nat -> G -> list float * G.

(** [lambda x: np.random.random(1)] *)
Definition conn_function : Callable (World := G) :=
  fun x g => np_random_random 1 g.

(** The body of [with model:]. *)
Definition with_model : Build G Locals :=
  pre ← new_Ensemble 50 1 None;
  post ← new_Ensemble 50 1 None;
  error ← new_Ensemble 100 1 None;
  actual_error ← new_Ensemble 100 1 (Some Direct);
  _ ← new_Connection pre actual_error None (Some (Scalar (-1))) None None;
  _ ← new_Connection post actual_error None (Some (Scalar 1)) None None;
  _ ← new_Connection pre error None (Some (Scalar (-1))) (Some (decimal 2 2)) None;
  _ ← new_Connection post error None (Some (Scalar 1)) (Some (decimal 2 2)) None;
  conn ← new_Connection pre post (Some conn_function) None None (Some (LstsqL2 true));
  _ ← set_learning_rule_type conn
        {[ "my_pes" := PES None; "my_bcm" := BCM (Some (decimal 1 10)) ]};
  my_pes ← learning_rule conn "my_pes";
  error_conn ← new_Connection error my_pes None None None None;
  input ← new_Node (OutProcess (WhiteSignal 30 10));
  _ ← new_Connection input pre None None (Some (decimal 2 2)) None;
  inhibit ← new_Node (OutFunction inhib);
  error_neurons ← neurons error;
  n ← get_n_neurons error;
  _ ← new_Connection inhibit error_neurons None
        (Some (Matrix (replicate n [(-1)%Z]))) (Some (decimal 1 2)) None;
  mret {| pre := pre; post := post; error := error; actual_error := actual_error;
          conn := conn; error_conn := error_conn; input := input; inhibit := inhibit |}.

(** [model = nengo.Network(label='Learning', seed=7)] followed by the
    [with model:] block. *)
Definition run_cell : option (Locals * Network G) :=
  with_model (new_Network "Learning" 7).

(** The network and the variables once the cell has run.  The cell does not
    raise ([run_cell_ok]), so the fall-back values are never used. *)
Definition model : Network G :=
  match run_cell with
  | Some (_, net) => net
  | None => new_Network "Learning" 7
  end.

Definition locals : Locals :=
  match run_cell with
  | Some (vars, _) => vars
  | None =>
      {| pre := NodeRef 0; post := NodeRef 0; error := NodeRef 0; actual_error := NodeRef 0;
         conn := NodeRef 0; error_conn := NodeRef 0; input := NodeRef 0; inhibit := NodeRef 0 |}
  end.

End NumpyRandom.

(** The variables of the cell when the block runs in a network that already
    holds [e] ensembles, [n] nodes and [c] connections. *)
Definition shift_locals (e n c : nat) (v : Locals) : Locals :=
  {| pre := shift_obj e n c (pre v); post := shift_obj e n c (post v);
     error := shift_obj e n c (error v); actual_error := shift_obj e n c (actual_error v);
     conn := shift_obj e n c (conn v); error_conn := shift_obj e n c (error_conn v);
     input := shift_obj e n c (input v); inhibit := shift_obj e n c (inhibit v) |}.

End ch6_learn.

(** ** Facts about binary64 comparison *)

Module pyfloat_facts.

Lemma digits2_pos_bounds (m : positive) :
  (2 ^ (Z.pos (digits2_pos m) - 1) <= Z.pos m < 2 ^ Z.pos (digits2_pos m))%Z.
Proof.
  induction m as [p IH | p IH | ]; cbn [digits2_pos].
  - rewrite Pos2Z.inj_succ.
    replace (Z.succ (Z.pos (digits2_pos p)) - 1)%Z
      with (Z.succ (Z.pos (digits2_pos p) - 1))%Z by lia.
    rewrite !Z.pow_succ_r by lia. lia.
  - rewrite Pos2Z.inj_succ.
    replace (Z.succ (Z.pos (digits2_pos p)) - 1)%Z
      with (Z.succ (Z.pos (digits2_pos p) - 1))%Z by lia.
    rewrite !Z.pow_succ_r by lia. lia.
  - cbn. lia.
Qed.

Lemma powerRZ_2_of_nat (n : nat) : powerRZ 2 (Z.of_nat n) = IZR (2 ^ Z.of_nat n).
Proof. rewrite <- pow_powerRZ. apply pow_IZR. Qed.

Lemma powerRZ_2_ge_1 (k : Z) : (0 <= k)%Z -> (1 <= powerRZ 2 k)%R.
Proof.
  intros Hk. rewrite <- (Z2Nat.id k) by exact Hk.
  rewrite <- pow_powerRZ. apply pow_R1_Rle. lra.
Qed.

Lemma powerRZ_2_mono (e1 e2 : Z) : (e1 <= e2)%Z -> (powerRZ 2 e1 <= powerRZ 2 e2)%R.
Proof.
  intros H. replace e2 with (e1 + (e2 - e1))%Z by lia.
  rewrite powerRZ_add by lra.
  pose proof (powerRZ_lt 2 e1 ltac:(lra)).
  pose proof (powerRZ_2_ge_1 (e2 - e1) ltac:(lia)).
  nra.
Qed.

(** [a * 2^k] scaled back by [2^-k]. *)
Lemma scaled_back (a : Z) (k : nat) :
  (IZR (a * 2 ^ Z.of_nat k) * powerRZ 2 (- Z.of_nat k) = IZR a)%R.
Proof.
  rewrite mult_IZR, powerRZ_neg', <- powerRZ_2_of_nat.
  pose proof (powerRZ_lt 2 (Z.of_nat k) ltac:(lra)).
  field. lra.
Qed.

Lemma fifteen : decimal 150 1 = S754_finite false 8444249301319680 (-49).
Proof. vm_compute. reflexivity. Qed.

Lemma two : decimal 20 1 = S754_finite false 4503599627370496 (-51).
Proof. vm_compute. reflexivity. Qed.

Lemma zero : decimal 0 1 = S754_zero false.
Proof. vm_compute. reflexivity. Qed.

Lemma to_R_two : to_R (decimal 20 1) = 2%R.
Proof.
  rewrite two. cbn [to_R cond_Zopp].
  pose proof (scaled_back 2 51) as H.
  change (- Z.of_nat 51)%Z with (-51)%Z in H.
  change (2 * 2 ^ Z.of_nat 51)%Z with 4503599627370496%Z in H.
  exact H.
Qed.

Lemma twenty : decimal 200 1 = S754_finite false 5629499534213120 (-48).
Proof. vm_compute. reflexivity. Qed.

Lemma to_R_twenty : to_R (decimal 200 1) = 20%R.
Proof.
  rewrite twenty. cbn [to_R cond_Zopp].
  pose proof (scaled_back 20 48) as H.
  change (- Z.of_nat 48)%Z with (-48)%Z in H.
  change (20 * 2 ^ Z.of_nat 48)%Z with 5629499534213120%Z in H.
  exact H.
Qed.

Lemma to_R_zero : to_R (decimal 0 1) = 0%R.
Proof. rewrite zero. reflexivity. Qed.

(** On a finite float, [t > 15.0] compares the real value of [t] with 15. *)
Lemma gtb_15_finite (t : float) :
  valid t = true -> is_finite t = true ->
  gtb t (decimal 150 1) = true <-> (15 < to_R t)%R.
Proof.
  intros Hv Hf. rewrite fifteen.
  destruct t as [s | s | | s m e]; try discriminate.
  - cbn. split; [discriminate | lra].
  - pose proof (digits2_pos_bounds m) as [Hlo Hhi].
    pose proof (powerRZ_lt 2 e ltac:(lra)) as Hp.
    unfold valid, valid_binary, bounded, canonical_mantissa, fexp, emin in Hv.
    apply andb_prop in Hv as [Hc _]. apply Z.eqb_eq in Hc.
    unfold prec, emax in Hc.
    unfold gtb, ltb, SFltb, SFcompare. cbn [to_R].
    destruct s; cbn [cond_Zopp].
    + split; [discriminate |].
      intros H. exfalso. clear Hlo Hhi Hc.
      assert (IZR (- Z.pos m) < 0)%R by (apply IZR_lt; lia).
      nra.
    + destruct (Z.compare_spec (-49) e) as [He | He | He].
      * (* same exponent as 15.0: the mantissas decide *)
        subst e. clear Hlo Hhi Hc.
        change (Pos.compare_cont Eq 8444249301319680 m)
          with (8444249301319680 ?= m)%positive.
        pose proof (scaled_back 15 49) as H15.
        change (- Z.of_nat 49)%Z with (-49)%Z in H15.
        change (15 * 2 ^ Z.of_nat 49)%Z with 8444249301319680%Z in H15.
        rewrite <- H15. clear H15.
        destruct (Pos.compare_spec 8444249301319680 m) as [Hm | Hm | Hm].
        -- subst m. split; [discriminate |].
           intros H. exfalso. apply (Rlt_irrefl _ H).
        -- split; [intros _ | reflexivity].
           apply Rmult_lt_compat_r; [exact Hp | apply IZR_lt; exact Hm].
        -- split; [discriminate |]. intros H. exfalso.
           apply Rmult_lt_reg_r in H; [| exact Hp].
           apply lt_IZR in H. apply (Z.lt_asymm _ _ H). exact Hm.
      * (* larger exponent: a normal float, at least 16 *)
        split; [intros _ | reflexivity].
        assert (Hd : Z.pos (digits2_pos m) = 53%Z) by (clear Hlo Hhi; lia).
        rewrite Hd in Hlo. clear Hhi Hc Hd.
        pose proof (powerRZ_2_mono (-48) e ltac:(lia)) as Hmono.
        pose proof (scaled_back 16 48) as H16.
        change (- Z.of_nat 48)%Z with (-48)%Z in H16.
        change (16 * 2 ^ Z.of_nat 48)%Z with (2 ^ (53 - 1))%Z in H16.
        apply IZR_le in Hlo.
        pose proof (powerRZ_lt 2 (-48) ltac:(lra)) as Hq.
        revert Hlo H16 Hmono Hq Hp.
        generalize (IZR (2 ^ (53 - 1))) (IZR (Z.pos m)) (powerRZ 2 (-48)) (powerRZ 2 e).
        intros a b p q Hlo H16 Hmono Hq Hp.
        assert (Ha : (0 <= a)%R) by nra.
        pose proof (Rmult_le_compat a b p q Ha (Rlt_le _ _ Hq) Hlo Hmono).
        lra.
      * (* smaller exponent: below 8 *)
        split; [discriminate |]. intros H. exfalso.
        assert (Hd : (Z.pos (digits2_pos m) <= 53)%Z) by (clear Hlo Hhi; lia).
        assert (Hm : (Z.pos m < 2 ^ 53)%Z).
        { eapply Z.lt_le_trans; [exact Hhi |].
          apply Z.pow_le_mono_r; [reflexivity | exact Hd]. }
        clear Hlo Hhi Hc Hd.
        pose proof (powerRZ_2_mono e (-50) ltac:(lia)) as Hmono.
        pose proof (scaled_back 8 50) as H8.
        change (- Z.of_nat 50)%Z with (-50)%Z in H8.
        change (8 * 2 ^ Z.of_nat 50)%Z with (2 ^ 53)%Z in H8.
        apply IZR_lt in Hm.
        assert (Hpos : (0 < IZR (Z.pos m))%R) by (apply IZR_lt; reflexivity).
        revert H Hm H8 Hmono Hpos Hp.
        generalize (IZR (2 ^ 53)) (IZR (Z.pos m)) (powerRZ 2 (-50)) (powerRZ 2 e).
        intros a b p q H Hm H8 Hmono Hpos Hp.
        pose proof (Rmult_le_compat b a q p (Rlt_le _ _ Hpos) (Rlt_le _ _ Hp)
                      (Rlt_le _ _ Hm) Hmono).
        lra.
Qed.

End pyfloat_facts.

(** ** What creating a connection changes *)

Module nengo_facts.

Import nengo.

Section Builder.

Context {World : Type}.

Implicit Types (net : Network World) (c : Connection World).

Lemma new_Connection_connections net net' r a b f t s sol :
  new_Connection a b f t s sol net = Some (r, net') ->
  connections net' = connections net ++ [ Build_Connection a b f t s sol None ] /\
  ensembles net' = ensembles net /\
  nodes net' = nodes net /\
  seed net' = seed net.
Proof.
  unfold new_Connection. intros H. injection H as _ <-. repeat split.
Qed.

(** A new connection is seen only at its target ... *)
Lemma new_Connection_incoming net net' r a b f t s sol (o : Obj) :
  new_Connection a b f t s sol net = Some (r, net') ->
  o <> b -> incoming net' o = incoming net o.
Proof.
  intros H Ho. apply new_Connection_connections in H as (Hconns & _).
  unfold incoming. rewrite Hconns, filter_app, filter_cons_False, filter_nil.
  - apply app_nil_r.
  - cbn. congruence.
Qed.

(** ... and at its source. *)
Lemma new_Connection_outgoing net net' r a b f t s sol (o : Obj) :
  new_Connection a b f t s sol net = Some (r, net') ->
  o <> a -> outgoing net' o = outgoing net o.
Proof.
  intros H Ho. apply new_Connection_connections in H as (Hconns & _).
  unfold outgoing. rewrite Hconns, filter_app, filter_cons_False, filter_nil.
  - apply app_nil_r.
  - cbn. congruence.
Qed.

Lemma new_Connection_decoded_input net net' r a b f t s sol (val : Obj -> R) (o : Obj) :
  new_Connection a b f t s sol net = Some (r, net') ->
  o <> b -> decoded_input net' val o = decoded_input net val o.
Proof.
  intros H Ho. unfold decoded_input.
  rewrite (new_Connection_incoming _ _ _ _ _ _ _ _ _ _ H Ho). reflexivity.
Qed.

End Builder.

End nengo_facts.

(** ** The constructed network *)

Module ch6_learn_facts.

Import nengo ch6_learn.

Section WithGenerator.

Variable G : Type.
Variable np_random_random : nat -> G -> list float * G.

#[local] Abbreviation model := (ch6_learn.model G np_random_random).
#[local] Abbreviation locals := (ch6_learn.locals G np_random_random).
#[local] Abbreviation pre := (ch6_learn.pre locals).
#[local] Abbreviation post := (ch6_learn.post locals).
#[local] Abbreviation error := (ch6_learn.error locals).
#[local] Abbreviation actual_error := (ch6_learn.actual_error locals).
#[local] Abbreviation conn := (ch6_learn.conn locals).
#[local] Abbreviation error_conn := (ch6_learn.error_conn locals).
#[local] Abbreviation input := (ch6_learn.input locals).
#[local] Abbreviation inhibit := (ch6_learn.inhibit locals).
#[local] Abbreviation K := (@Build_Connection G).

(** The two rules attached to [conn]. *)
#[local] Abbreviation rules :=
  ({[ "my_pes" := PES None; "my_bcm" := BCM (Some (decimal 1 10)) ]}
     : gmap string LearningRuleType).

Lemma run_cell_ok : run_cell G np_random_random = Some (locals, model).
Proof. vm_compute. reflexivity. Qed.

Lemma the_variables :
  locals = {| ch6_learn.pre := EnsembleRef 0; ch6_learn.post := EnsembleRef 1;
              ch6_learn.error := EnsembleRef 2; ch6_learn.actual_error := EnsembleRef 3;
              ch6_learn.conn := ConnectionRef 4; ch6_learn.error_conn := ConnectionRef 5;
              ch6_learn.input := NodeRef 0; ch6_learn.inhibit := NodeRef 1 |}.
Proof. vm_compute. reflexivity. Qed.

Lemma the_ensembles :
  ensembles model =
    [ Build_Ensemble 50 1 None; Build_Ensemble 50 1 None;
      Build_Ensemble 100 1 None; Build_Ensemble 100 1 (Some Direct) ].
Proof. vm_compute. reflexivity. Qed.

Lemma the_nodes :
  nodes model = [ Build_Node (OutProcess (WhiteSignal 30 10)); Build_Node (OutFunction inhib) ].
Proof. vm_compute. reflexivity. Qed.

Lemma the_connections :
  connections model =
    [ K pre actual_error None (Some (Scalar (-1))) None None None;
      K post actual_error None (Some (Scalar 1)) None None None;
      K pre error None (Some (Scalar (-1))) (Some (decimal 2 2)) None None;
      K post error None (Some (Scalar 1)) (Some (decimal 2 2)) None None;
      K pre post (Some (conn_function G np_random_random)) None None
        (Some (LstsqL2 true)) (Some rules);
      K error (LearningRuleRef 4 "my_pes") None None None None None;
      K input pre None None (Some (decimal 2 2)) None None;
      K inhibit (NeuronsRef 2) None (Some (Matrix (replicate 100 [(-1)%Z])))
        (Some (decimal 1 2)) None None ].
Proof. vm_compute. reflexivity. Qed.

(** Replaces the variables of the cell by the objects they are bound to. *)
Ltac concrete :=
  rewrite ?the_variables in *;
  cbn [ch6_learn.pre ch6_learn.post ch6_learn.error ch6_learn.actual_error
       ch6_learn.conn ch6_learn.error_conn ch6_learn.input ch6_learn.inhibit
       nengo.pre nengo.post] in *.

(** Case analysis on a connection of the model. *)
Ltac each_connection H :=
  rewrite the_connections in H;
  repeat (apply elem_of_cons in H; destruct H as [H | H]; [subst |]);
  [.. | apply elem_of_nil in H; destruct H];
  concrete.

Lemma into_error :
  incoming model error =
    [ K pre error None (Some (Scalar (-1))) (Some (decimal 2 2)) None None;
      K post error None (Some (Scalar 1)) (Some (decimal 2 2)) None None ].
Proof. vm_compute. reflexivity. Qed.

Lemma into_actual_error :
  incoming model actual_error =
    [ K pre actual_error None (Some (Scalar (-1))) None None None;
      K post actual_error None (Some (Scalar 1)) None None None ].
Proof. vm_compute. reflexivity. Qed.

Lemma error_signal (val : Obj -> R) :
  decoded_input model val error = Some (val post - val pre)%R.
Proof.
  unfold decoded_input. rewrite into_error. cbn.
  f_equal. lra.
Qed.

Lemma actual_error_signal (val : Obj -> R) :
  decoded_input model val actual_error = Some (val post - val pre)%R.
Proof.
  unfold decoded_input. rewrite into_actual_error. cbn.
  f_equal. lra.
Qed.

Lemma out_of_input :
  outgoing model input = [ K input pre None None (Some (decimal 2 2)) None None ].
Proof. vm_compute. reflexivity. Qed.

Lemma out_of_error :
  outgoing model error = [ K error (LearningRuleRef 4 "my_pes") None None None None None ].
Proof. vm_compute. reflexivity. Qed.

Lemma out_of_inhibit :
  outgoing model inhibit =
    [ K inhibit (NeuronsRef 2) None (Some (Matrix (replicate 100 [(-1)%Z])))
        (Some (decimal 1 2)) None None ].
Proof. vm_compute. reflexivity. Qed.

(** *** The error populations *)

(** C2, what the code computes: lines 71-72 feed the error ensemble [pre]
    through the transform -1 and [post] through the transform +1, each
    through a 0.02 s synapse, so the value it is asked to represent is post
    minus pre, whatever the two populations represent.  The comment of line
    69 says pre minus post. *)
Theorem error_is_post_minus_pre :
  incoming model error =
    [ K pre error None (Some (Scalar (-1))) (Some (decimal 2 2)) None None;
      K post error None (Some (Scalar 1)) (Some (decimal 2 2)) None None ] /\
  forall val : Obj -> R,
    decoded_input model val error = Some (val post - val pre)%R.
Proof. split; [exact into_error | exact error_signal]. Qed.

Lemma into_neurons_of_error :
  incoming model (NeuronsRef 2) =
    [ K inhibit (NeuronsRef 2) None (Some (Matrix (replicate 100 [(-1)%Z])))
        (Some (decimal 1 2)) None None ].
Proof. vm_compute. reflexivity. Qed.

Lemma into_neurons_of_actual_error : incoming model (NeuronsRef 3) = [].
Proof. vm_compute. reflexivity. Qed.

Lemma out_of_actual_error : outgoing model actual_error = [].
Proof. vm_compute. reflexivity. Qed.

Lemma out_of_neurons :
  outgoing model (NeuronsRef 2) = [] /\ outgoing model (NeuronsRef 3) = [].
Proof. split; vm_compute; reflexivity. Qed.

(** C5, as amended: [actual_error] (neuron type [Direct]) and [error] are
    ensembles of the same size that receive [pre] through -1 and [post]
    through +1, so both are asked to represent the same combination of the
    two values; the ensembles differ in the neuron type, and these incoming
    connections in the synapse.  Beyond that only [error] is wired further:
    its neurons receive the connection from the inhibit node and it has one
    outgoing connection, to the PES rule of [conn]; [actual_error] has no
    connection into its neurons and none going out. *)
Theorem C5_actual_error_same_combination :
  ensemble_of model error = Some (Build_Ensemble 100 1 None) /\
  ensemble_of model actual_error = Some (Build_Ensemble 100 1 (Some Direct)) /\
  (let shape (c : Connection G) :=
     (nengo.pre c, nengo.function c, nengo.transform c, nengo.solver c,
      nengo.learning_rule_type c) in
   shape <$> incoming model actual_error = shape <$> incoming model error /\
   shape <$> incoming model error =
     [ (pre, None, Some (Scalar (-1)), None, None);
       (post, None, Some (Scalar 1), None, None) ]) /\
  nengo.synapse <$> incoming model error = [ Some (decimal 2 2); Some (decimal 2 2) ] /\
  nengo.synapse <$> incoming model actual_error = [ None; None ] /\
  (forall val : Obj -> R,
     decoded_input model val actual_error = decoded_input model val error /\
     decoded_input model val error = Some (-1 * val pre + 1 * val post)%R) /\
  (error = EnsembleRef 2 /\ actual_error = EnsembleRef 3) /\
  incoming model (NeuronsRef 2) =
    [ K inhibit (NeuronsRef 2) None (Some (Matrix (replicate 100 [(-1)%Z])))
        (Some (decimal 1 2)) None None ] /\
  incoming model (NeuronsRef 3) = [] /\
  outgoing model error =
    [ K error (LearningRuleRef 4 "my_pes") None None None None None ] /\
  outgoing model actual_error = [] /\
  outgoing model (NeuronsRef 2) = [] /\
  outgoing model (NeuronsRef 3) = [].
Proof.
  split; [vm_compute; reflexivity |].
  split; [vm_compute; reflexivity |].
  rewrite into_error, into_actual_error.
  split; [split; vm_compute; reflexivity |].
  split; [vm_compute; reflexivity |].
  split; [vm_compute; reflexivity |].
  split.
  { intros val. rewrite actual_error_signal, error_signal.
    split; [reflexivity | f_equal; lra]. }
  split; [split; vm_compute; reflexivity |].
  split; [exact into_neurons_of_error |].
  split; [exact into_neurons_of_actual_error |].
  split; [exact out_of_error |].
  split; [exact out_of_actual_error |].
  exact out_of_neurons.
Qed.

(** *** The learned connection *)

(** C6: [pre] and [post] are 50-neuron, one-dimensional ensembles; exactly
    one connection runs from [pre] to [post], it is [conn], and it is the
    only connection of the network that carries learning rules.  The error
    that drives it vanishes exactly when [post] represents the value of
    [pre]: the function to learn is the identity. *)
Theorem C6_pre_post_one_learned_connection :
  ensemble_of model pre = Some (Build_Ensemble 50 1 None) /\
  ensemble_of model post = Some (Build_Ensemble 50 1 None) /\
  (let k := K pre post (Some (conn_function G np_random_random)) None None
              (Some (LstsqL2 true)) (Some rules) in
   connection_of model conn = Some k /\
   filter (fun c => nengo.pre c = pre /\ nengo.post c = post) (connections model) = [k] /\
   learned model = [k]) /\
  filter (fun c => nengo.pre c = post /\ nengo.post c = pre) (connections model) = [] /\
  forall val : Obj -> R,
    exists e : R, decoded_input model val error = Some e /\ (e = 0%R <-> val post = val pre).
Proof.
  split; [vm_compute; reflexivity |].
  split; [vm_compute; reflexivity |].
  split; [split; [| split]; vm_compute; reflexivity |].
  split; [vm_compute; reflexivity |].
  intros val. exists (val post - val pre)%R.
  split; [apply error_signal | lra].
Qed.

(** *** The stimulus *)

(** C7: the network is built with seed 7; the input node wraps
    [WhiteSignal(30, high=10)]; its only connection goes to [pre], with
    nothing but a synapse of 0.02 s (the binary64 number nearest to 1/50). *)
Theorem C7_seeded_white_signal_input :
  seed model = 7%Z /\
  label model = "Learning" /\
  node_of model input = Some (Build_Node (OutProcess (WhiteSignal 30 10))) /\
  (period (WhiteSignal 30 10) = 30%Z /\ high (WhiteSignal 30 10) = 10%Z) /\
  outgoing model input = [ K input pre None None (Some (decimal 2 2)) None None ] /\
  (decimal 2 2 = S754_finite false 5764607523034235 (-58) /\
   (2 * Z.abs (5764607523034235 * 50 - 2 ^ 58) <= 50)%Z).
Proof.
  split; [vm_compute; reflexivity |].
  split; [vm_compute; reflexivity |].
  split; [vm_compute; reflexivity |].
  split; [split; reflexivity |].
  split; [exact out_of_input |].
  split; [vm_compute; reflexivity | vm_compute; discriminate].
Qed.

(** *** Inhibition *)

Lemma into_error_neurons :
  incoming model (NeuronsRef 2) =
    [ K inhibit (NeuronsRef 2) None (Some (Matrix (replicate 100 [(-1)%Z])))
        (Some (decimal 1 2)) None None ].
Proof. vm_compute. reflexivity. Qed.

Lemma inhib_on (t : float) :
  valid t = true -> is_finite t = true -> (15 < to_R t)%R -> inhib t = decimal 20 1.
Proof.
  intros Hv Hf Ht. unfold inhib.
  apply (pyfloat_facts.gtb_15_finite t Hv Hf) in Ht. rewrite Ht. reflexivity.
Qed.

Lemma inhib_off (t : float) :
  valid t = true -> is_finite t = true -> (to_R t <= 15)%R -> inhib t = decimal 0 1.
Proof.
  intros Hv Hf Ht. unfold inhib.
  destruct (gtb t (decimal 150 1)) eqn:E; [| reflexivity].
  apply (pyfloat_facts.gtb_15_finite t Hv Hf) in E. lra.
Qed.

Lemma inhibited_neuron (val : Obj -> R) (i : nat) :
  i < 100 -> neuron_input model val (NeuronsRef 2) i = Some (- val inhibit)%R.
Proof.
  intros Hi. unfold neuron_input. rewrite into_error_neurons.
  cbn [fmap list_fmap delivered_to_neuron nengo.function nengo.transform nengo.pre].
  rewrite lookup_replicate_2 by exact Hi.
  cbn. f_equal. lra.
Qed.

(** C3: the inhibit node puts out [inhib(t)], which is 2.0 when [t > 15.0]
    and 0.0 otherwise: on every finite float, 2.0 exactly when the time is
    above 15 (so already at 20 s, and not yet at 15 s), 2.0 at +infinity and
    0.0 at -infinity and NaN.  The node's only connection goes to the
    neurons of [error]; its transform has one row [-1] per neuron of [error],
    100 of them, so the connection puts out minus the node's value at every
    neuron: -2 after 15 s and 0 before. *)
Theorem C3_inhibit_after_15_seconds :
  node_of model inhibit = Some (Build_Node (OutFunction inhib)) /\
  (forall t : float,
     inhib t = if gtb t (decimal 150 1) then decimal 20 1 else decimal 0 1) /\
  (forall t : float, valid t = true -> is_finite t = true ->
     ((15 < to_R t)%R -> inhib t = decimal 20 1) /\
     ((to_R t <= 15)%R -> inhib t = decimal 0 1)) /\
  (inhib (S754_infinity false) = decimal 20 1 /\
   inhib (S754_infinity true) = decimal 0 1 /\
   inhib S754_nan = decimal 0 1 /\
   inhib (decimal 150 1) = decimal 0 1 /\
   inhib (decimal 200 1) = decimal 20 1) /\
  (to_R (decimal 20 1) = 2%R /\ to_R (decimal 0 1) = 0%R) /\
  error = EnsembleRef 2 /\
  n_neurons <$> ensemble_of model error = Some 100 /\
  outgoing model inhibit =
    [ K inhibit (NeuronsRef 2) None (Some (Matrix (replicate 100 [(-1)%Z])))
        (Some (decimal 1 2)) None None ] /\
  incoming model (NeuronsRef 2) = outgoing model inhibit /\
  length (replicate 100 [(-1)%Z]) = 100 /\
  (forall i, i < 100 -> replicate 100 [(-1)%Z] !! i = Some [(-1)%Z]) /\
  (forall (val : Obj -> R) (i : nat), i < 100 ->
     neuron_input model val (NeuronsRef 2) i = Some (- val inhibit)%R) /\
  (forall (val : Obj -> R) (t : float) (i : nat),
     i < 100 -> valid t = true -> is_finite t = true ->
     val inhibit = to_R (inhib t) ->
     ((15 < to_R t)%R -> neuron_input model val (NeuronsRef 2) i = Some (- (2))%R) /\
     ((to_R t <= 15)%R -> neuron_input model val (NeuronsRef 2) i = Some (- (0))%R)).
Proof.
  split; [vm_compute; reflexivity |].
  split; [reflexivity |].
  split; [intros t Hv Hf; split; [apply inhib_on | apply inhib_off]; assumption |].
  split; [repeat split; vm_compute; reflexivity |].
  split; [split; [apply pyfloat_facts.to_R_two | apply pyfloat_facts.to_R_zero] |].
  split; [vm_compute; reflexivity |].
  split; [vm_compute; reflexivity |].
  split; [exact out_of_inhibit |].
  split; [rewrite into_error_neurons, out_of_inhibit; reflexivity |].
  split; [apply length_replicate |].
  split; [intros i Hi; apply lookup_replicate_2; exact Hi |].
  split; [exact inhibited_neuron |].
  intros val t i Hi Hv Hf Hval.
  rewrite (inhibited_neuron val i Hi), Hval.
  split; intros Ht.
  - rewrite (inhib_on t Hv Hf Ht), pyfloat_facts.to_R_two. reflexivity.
  - rewrite (inhib_off t Hv Hf Ht), pyfloat_facts.to_R_zero. reflexivity.
Qed.

(** C10: the only connection that leaves the inhibit node ends at the
    neurons of [error].  No connection into [pre], [post] or [actual_error],
    into their neurons, or into a learning rule comes from the node; the two
    connections into [actual_error] come from [pre] and [post], and the
    value [actual_error] is asked to represent is post minus pre whatever
    the node puts out.  Creating a connection from the node to the neurons
    of [error] changes, in any network, what comes into that target only. *)
Theorem C10_inhibition_reaches_only_error_neurons :
  (pre = EnsembleRef 0 /\ post = EnsembleRef 1 /\
   error = EnsembleRef 2 /\ actual_error = EnsembleRef 3) /\
  nengo.post <$> outgoing model inhibit = [ NeuronsRef 2 ] /\
  (forall c, c ∈ connections model -> nengo.pre c = inhibit -> nengo.post c = NeuronsRef 2) /\
  nengo.pre <$> incoming model actual_error = [ pre; post ] /\
  (forall tgt,
     tgt ∈ [ pre; post; actual_error; NeuronsRef 0; NeuronsRef 1; NeuronsRef 3 ] ->
     inhibit ∉ (nengo.pre <$> incoming model tgt)) /\
  (forall c k key, c ∈ connections model ->
     nengo.post c = LearningRuleRef k key -> nengo.pre c <> inhibit) /\
  (forall val val' : Obj -> R,
     (forall o, o <> inhibit -> val o = val' o) ->
     decoded_input model val actual_error = decoded_input model val' actual_error) /\
  (forall val : Obj -> R,
     decoded_input model val actual_error = Some (val post - val pre)%R) /\
  (forall (net net' : Network G) r t s (val : Obj -> R) (tgt : Obj),
     new_Connection inhibit (NeuronsRef 2) None t s None net = Some (r, net') ->
     tgt <> NeuronsRef 2 ->
     incoming net' tgt = incoming net tgt /\
     decoded_input net' val tgt = decoded_input net val tgt).
Proof.
  split; [repeat split; vm_compute; reflexivity |].
  split; [vm_compute; reflexivity |].
  split.
  { intros c Hc Hpre. each_connection Hc; first [discriminate Hpre | reflexivity]. }
  split; [vm_compute; reflexivity |].
  split.
  { intros tgt Htgt.
    repeat (apply elem_of_cons in Htgt; destruct Htgt as [-> | Htgt]);
      [.. | apply elem_of_nil in Htgt; destruct Htgt];
      apply (bool_decide_unpack _); vm_compute; reflexivity. }
  split.
  { intros c k key Hc Hpost. each_connection Hc; discriminate. }
  split.
  { intros val val' Hsame. rewrite !actual_error_signal.
    rewrite (Hsame pre), (Hsame post) by (concrete; discriminate).
    reflexivity. }
  split; [exact actual_error_signal |].
  intros net net' r t s val tgt Hnew Htgt. split.
  - exact (nengo_facts.new_Connection_incoming _ _ _ _ _ _ _ _ _ _ Hnew Htgt).
  - exact (nengo_facts.new_Connection_decoded_input _ _ _ _ _ _ _ _ _ _ _ Hnew Htgt).
Qed.

(** *** The learning rules *)

Lemma rules_keys (key : string) :
  is_Some (rules !! key) -> key = "my_pes" \/ key = "my_bcm".
Proof.
  intros Hk.
  destruct (decide (key = "my_pes")) as [-> | Hpes]; [left; reflexivity |].
  destruct (decide (key = "my_bcm")) as [-> | Hbcm]; [right; reflexivity |].
  rewrite lookup_insert_ne in Hk by congruence.
  rewrite lookup_singleton_ne in Hk by congruence.
  destruct Hk as [r Hr]. discriminate Hr.
Qed.

(** C4: [conn] (from [pre] to [post]) carries exactly two learning rules, a
    PES rule under the key my_pes and a BCM rule under my_bcm whose learning
    rate is 1e-10 (the binary64 number nearest to 10^-10).  The one
    connection that leaves [error] is [error_conn]; it ends at the PES rule
    of [conn], and no connection of the network ends at any other learning
    rule. *)
Theorem C4_two_learning_rules_error_drives_pes :
  conn = ConnectionRef 4 /\
  (fun c => (nengo.pre c, nengo.post c, nengo.learning_rule_type c))
    <$> connection_of model conn = Some (pre, post, Some rules) /\
  size rules = 2 /\
  rules !! "my_pes" = Some (PES None) /\
  rules !! "my_bcm" = Some (BCM (Some (decimal 1 10))) /\
  (forall key, is_Some (rules !! key) -> key = "my_pes" \/ key = "my_bcm") /\
  (decimal 1 10 = S754_finite false 7737125245533627 (-86) /\
   (2 * Z.abs (7737125245533627 * 10 ^ 10 - 2 ^ 86) <= 10 ^ 10)%Z) /\
  outgoing model error =
    [ K error (LearningRuleRef 4 "my_pes") None None None None None ] /\
  connection_of model error_conn =
    Some (K error (LearningRuleRef 4 "my_pes") None None None None None) /\
  (forall c k key, c ∈ connections model ->
     nengo.post c = LearningRuleRef k key ->
     k = 4 /\ key = "my_pes" /\ nengo.pre c = error).
Proof.
  split; [vm_compute; reflexivity |].
  split; [vm_compute; reflexivity |].
  split; [vm_compute; reflexivity |].
  split; [vm_compute; reflexivity |].
  split; [vm_compute; reflexivity |].
  split; [exact rules_keys |].
  split; [split; [vm_compute; reflexivity | vm_compute; discriminate] |].
  split; [exact out_of_error |].
  split; [vm_compute; reflexivity |].
  intros c k key Hc Hpost.
  each_connection Hc; try discriminate Hpost.
  injection Hpost as <- <-. repeat split.
Qed.

(** *** Dimensions *)

(** C8: the network has the eight connections listed, and every one passes
    the dimension check, given the three facts about the libraries it
    depends on: [np.random.random(1)] returns one sample, a node wrapping a
    process has output size 1 by default, and a PES rule expects an error of
    the size of its connection's output.  The sizes at the two ends are 1
    and 1 for the first seven connections (all those into an ensemble, and
    the one into the PES rule) and 1 and 100 for the last, from the inhibit
    node to the neurons of [error]: that is the node's only connection, and
    its transform is a column of -1 with one row per neuron of [error], 100
    rows of length 1. *)
Theorem C8_dimensions_match
    (default_size_out : nat) (rule_size_in : nat -> LearningRuleType -> nat) :
  (forall g, length (fst (np_random_random 1 g)) = 1) ->
  default_size_out = 1 ->
  (forall d lr, rule_size_in d (PES lr) = d) ->
  Forall (dims_match default_size_out rule_size_in model) (connections model) /\
  (forall c j, c ∈ connections model -> nengo.post c = EnsembleRef j ->
     size_out default_size_out model (nengo.pre c) = Some 1 /\
     size_in rule_size_in model (nengo.post c) = Some 1) /\
  (forall c, c ∈ outgoing model inhibit ->
     nengo.post c = NeuronsRef 2 /\
     size_out default_size_out model (nengo.pre c) = Some 1 /\
     size_in rule_size_in model (nengo.post c) = Some 100 /\
     n_neurons <$> ensemble_of model error = Some 100 /\
     exists rows,
       nengo.transform c = Some (Matrix rows) /\
       length rows = 100 /\
       Forall (fun row => row = [(-1)%Z]) rows) /\
  connections model =
    [ K pre actual_error None (Some (Scalar (-1))) None None None;
      K post actual_error None (Some (Scalar 1)) None None None;
      K pre error None (Some (Scalar (-1))) (Some (decimal 2 2)) None None;
      K post error None (Some (Scalar 1)) (Some (decimal 2 2)) None None;
      K pre post (Some (conn_function G np_random_random)) None None
        (Some (LstsqL2 true)) (Some rules);
      K error (LearningRuleRef 4 "my_pes") None None None None None;
      K input pre None None (Some (decimal 2 2)) None None;
      K inhibit (NeuronsRef 2) None (Some (Matrix (replicate 100 [(-1)%Z])))
        (Some (decimal 1 2)) None None ] /\
  (fun c => (size_out default_size_out model (nengo.pre c),
             size_in rule_size_in model (nengo.post c))) <$> connections model =
    [ (Some 1, Some 1); (Some 1, Some 1); (Some 1, Some 1); (Some 1, Some 1);
      (Some 1, Some 1); (Some 1, Some 1); (Some 1, Some 1); (Some 1, Some 100) ] /\
  outgoing model inhibit =
    [ K inhibit (NeuronsRef 2) None (Some (Matrix (replicate 100 [(-1)%Z])))
        (Some (decimal 1 2)) None None ] /\
  (error = EnsembleRef 2 /\ n_neurons <$> ensemble_of model error = Some 100) /\
  (length (replicate 100 [(-1)%Z]) = 100 /\
   forall i, i < 100 -> replicate 100 [(-1)%Z] !! i = Some [(-1)%Z]).
Proof.
  intros Hnp -> Hpes.
  assert (Hlr : size_in rule_size_in model (LearningRuleRef 4 "my_pes") = Some 1).
  { transitivity (Some (rule_size_in 1 (PES None))); [vm_compute; reflexivity |].
    rewrite Hpes. reflexivity. }
  split; [| split; [| split]].
  - rewrite the_connections. concrete.
    repeat (apply Forall_cons; split); [.. | apply Forall_nil; exact I];
      unfold dims_match; cbn [nengo.pre nengo.post nengo.function nengo.transform].
    + exists 1, 1, 1. repeat split; vm_compute; reflexivity.
    + exists 1, 1, 1. repeat split; vm_compute; reflexivity.
    + exists 1, 1, 1. repeat split; vm_compute; reflexivity.
    + exists 1, 1, 1. repeat split; vm_compute; reflexivity.
    + exists 1, 1, 1.
      split; [vm_compute; reflexivity |]. split; [vm_compute; reflexivity |].
      split; [| reflexivity].
      intros x w _. apply Hnp.
    + exists 1, 1, 1.
      split; [vm_compute; reflexivity |]. split; [exact Hlr |].
      split; reflexivity.
    + exists 1, 1, 1. repeat split; vm_compute; reflexivity.
    + exists 1, 1, 100.
      split; [vm_compute; reflexivity |]. split; [vm_compute; reflexivity |].
      split; [reflexivity |].
      split; [apply length_replicate |].
      apply Forall_replicate. reflexivity.
  - intros c j Hc Hpost.
    each_connection Hc; try discriminate Hpost; split; vm_compute; reflexivity.
  - intros c Hc. rewrite out_of_inhibit in Hc.
    apply list_elem_of_singleton in Hc. subst c. concrete.
    split; [reflexivity |].
    split; [vm_compute; reflexivity |].
    split; [vm_compute; reflexivity |].
    split; [vm_compute; reflexivity |].
    exists (replicate 100 [(-1)%Z]).
    split; [reflexivity |]. split; [apply length_replicate |].
    apply Forall_replicate. reflexivity.
  - split; [exact the_connections |].
    split.
    { rewrite the_connections.
      cbn [fmap list_fmap nengo.pre nengo.post]. rewrite Hlr.
      vm_compute. reflexivity. }
    split; [exact out_of_inhibit |].
    split; [split; vm_compute; reflexivity |].
    split; [apply length_replicate |].
    intros i Hi. apply lookup_replicate_2. exact Hi.
Qed.

(** *** The function of the learned connection *)


Lemma eval_function_cons (x : list float) (xs : list (list float)) (g : G) :
  eval_function (conn_function G np_random_random) (x :: xs) g =
    (fst (np_random_random 1 g)
       :: fst (eval_function (conn_function G np_random_random) xs
                 (snd (np_random_random 1 g))),
     snd (eval_function (conn_function G np_random_random) xs
            (snd (np_random_random 1 g)))).
Proof.
  cbn [eval_function]. unfold conn_function at 1.
  destruct (np_random_random 1 g) as [y g1]. cbn [fst snd].
  destruct (eval_function _ xs g1) as [ys g2]. reflexivity.
Qed.







End WithGenerator.

(** *** The development at a concrete generator *)

(** C2: the comments of the cell put the error at pre minus post; the code
    does not compute it.  With [pre] representing 1 and [post] representing
    0 the error ensemble is asked to represent -1, and pre minus post is
    1. *)
Lemma C2_error_is_not_pre_minus_post :
  let net := model Z lcg.random in
  let vars := locals Z lcg.random in
  let val (o : Obj) : R := if decide (o = EnsembleRef 0) then 1%R else 0%R in
  pre vars = EnsembleRef 0 /\
  post vars = EnsembleRef 1 /\
  decoded_input net val (error vars) = Some (-1)%R /\
  decoded_input net val (error vars) <> Some (val (pre vars) - val (post vars))%R.
Proof.
  intros net vars val.
  assert (Hpre : pre vars = EnsembleRef 0) by (vm_compute; reflexivity).
  assert (Hpost : post vars = EnsembleRef 1) by (vm_compute; reflexivity).
  assert (H1 : val (pre vars) = 1%R) by (rewrite Hpre; reflexivity).
  assert (H0 : val (post vars) = 0%R) by (rewrite Hpost; reflexivity).
  split; [exact Hpre |]. split; [exact Hpost |].
  subst net vars. rewrite error_signal, H1, H0.
  split; [f_equal; lra |].
  intros H. injection H as H. lra.
Qed.

(** C5 as first stated fails: the two populations differ in more than the
    neuron type and the synapse.  The neurons of [error] have an incoming
    connection (from the inhibit node) and [error] an outgoing one (to the
    PES rule); the neurons of [actual_error] have none and [actual_error]
    has none. *)
Lemma C5_error_is_wired_further :
  let net := model Z lcg.random in
  let vars := locals Z lcg.random in
  (error vars = EnsembleRef 2 /\ actual_error vars = EnsembleRef 3) /\
  (length (incoming net (NeuronsRef 2)) = 1 /\
   length (incoming net (NeuronsRef 3)) = 0) /\
  (length (outgoing net (error vars)) = 1 /\
   length (outgoing net (actual_error vars)) = 0) /\
  nengo.pre <$> incoming net (NeuronsRef 2) <> nengo.pre <$> incoming net (NeuronsRef 3) /\
  nengo.post <$> outgoing net (error vars) <> nengo.post <$> outgoing net (actual_error vars).
Proof.
  intros net vars. subst net vars.
  rewrite into_neurons_of_error, into_neurons_of_actual_error,
    out_of_error, out_of_actual_error.
  split; [rewrite the_variables; split; reflexivity |].
  split; [split; reflexivity |].
  split; [split; reflexivity |].
  split; discriminate.
Qed.

(** At 20 s the node puts out 2.0 and the connection gives -2 at neuron 0 of
    [error]. *)
Lemma C3_witness_at_20_seconds :
  valid (decimal 200 1) = true /\
  is_finite (decimal 200 1) = true /\
  (15 < to_R (decimal 200 1))%R /\
  inhib (decimal 200 1) = decimal 20 1 /\
  neuron_input (model Z lcg.random) (fun _ => to_R (inhib (decimal 200 1)))
    (NeuronsRef 2) 0 = Some (- (2))%R.
Proof.
  destruct (C3_inhibit_after_15_seconds Z lcg.random)
    as (_ & _ & Hfin & _ & _ & _ & _ & _ & _ & _ & _ & _ & Hdrive).
  assert (Hv : valid (decimal 200 1) = true) by (vm_compute; reflexivity).
  assert (Hf : is_finite (decimal 200 1) = true) by (vm_compute; reflexivity).
  assert (Ht : (15 < to_R (decimal 200 1))%R)
    by (rewrite pyfloat_facts.to_R_twenty; lra).
  split; [exact Hv |]. split; [exact Hf |]. split; [exact Ht |].
  split.
  - exact (proj1 (Hfin _ Hv Hf) Ht).
  - refine (proj1 (Hdrive (fun _ => to_R (inhib (decimal 200 1))) _ 0 _ Hv Hf eq_refl) Ht).
    lia.
Defined.

(** [error_conn] is a connection of the model into a learning rule. *)
Lemma C4_witness_error_conn :
  let c := @Build_Connection Z (EnsembleRef 2) (LearningRuleRef 4 "my_pes")
             None None None None None in
  c ∈ connections (model Z lcg.random) /\
  nengo.post c = LearningRuleRef 4 "my_pes" /\
  (4 = 4 /\ "my_pes" = "my_pes" /\ nengo.pre c = error (locals Z lcg.random)).
Proof.
  intros c.
  destruct (C4_two_learning_rules_error_drives_pes Z lcg.random)
    as (_ & _ & _ & _ & _ & _ & _ & _ & _ & Honly).
  assert (Hc : c ∈ connections (model Z lcg.random)).
  { rewrite the_connections, the_variables.
    do 5 apply list_elem_of_further. apply list_elem_of_here. }
  split; [exact Hc |]. split; [reflexivity |].
  exact (Honly c 4 "my_pes" Hc eq_refl).
Defined.

(** The three assumptions of C8 hold of the concrete generator, of output
    size 1 and of a rule that takes an error of the connection's size. *)
Lemma C8_witness_lcg :
  (forall g, length (fst (lcg.random 1 g)) = 1) /\
  Forall (dims_match 1 (fun d _ => d) (model Z lcg.random))
    (connections (model Z lcg.random)) /\
  length (connections (model Z lcg.random)) = 8 /\
  (fun c => (size_out 1 (model Z lcg.random) (nengo.pre c),
             size_in (fun d _ => d) (model Z lcg.random) (nengo.post c)))
    <$> outgoing (model Z lcg.random) (inhibit (locals Z lcg.random)) =
    [ (Some 1, Some 100) ].
Proof.
  assert (Hnp : forall g, length (fst (lcg.random 1 g)) = 1)
    by (intros g; reflexivity).
  destruct (C8_dimensions_match Z lcg.random 1 (fun d _ => d)
              Hnp eq_refl (fun d lr => eq_refl))
    as (Hall & _ & Hinh & Hconns & _ & Hout & _).
  split; [exact Hnp |]. split; [exact Hall |].
  split; [rewrite Hconns; reflexivity |].
  rewrite Hout in Hinh |- *.
  destruct (Hinh _ (list_elem_of_here _ _)) as (_ & Hso & Hsi & _).
  cbn [fmap list_fmap]. rewrite Hso, Hsi. reflexivity.
Defined.



(** Two assignments of values that differ at the inhibit node only. *)
Lemma C10_witness_inhibit_value :
  let val (o : Obj) : R := 0%R in
  let val' (o : Obj) : R := if decide (o = NodeRef 1) then 2%R else 0%R in
  inhibit (locals Z lcg.random) = NodeRef 1 /\
  val' (NodeRef 1) = 2%R /\
  decoded_input (model Z lcg.random) val (actual_error (locals Z lcg.random)) =
    decoded_input (model Z lcg.random) val' (actual_error (locals Z lcg.random)).
Proof.
  intros val val'.
  destruct (C10_inhibition_reaches_only_error_neurons Z lcg.random)
    as (_ & _ & _ & _ & _ & _ & Hframe & _ & _).
  assert (Hinh : inhibit (locals Z lcg.random) = NodeRef 1) by (vm_compute; reflexivity).
  split; [exact Hinh |]. split; [reflexivity |].
  apply Hframe. intros o Ho. rewrite Hinh in Ho.
  subst val val'. cbn beta. destruct (decide (o = NodeRef 1)) as [E | _].
  - destruct (Ho E).
  - reflexivity.
Defined.

End ch6_learn_facts.

(** ** The block in a network that is not empty *)

Module ch6_learn_anywhere.

Import nengo ch6_learn.

Lemma lookup_last {A : Type} (l : list A) (x : A) : (l ++ [x]) !! length l = Some x.
Proof. apply list_lookup_middle. reflexivity. Qed.

Lemma insert_last {A : Type} (l : list A) (x y : A) :
  <[length l := y]> (l ++ [x]) = l ++ [y].
Proof.
  rewrite insert_app_r_alt by lia. rewrite Nat.sub_diag. reflexivity.
Qed.

Lemma lookup_before_last {A : Type} (l : list A) (x y : A) :
  ((l ++ [x]) ++ [y]) !! length l = Some x.
Proof.
  rewrite lookup_app_l by (rewrite length_app; cbn; lia). apply lookup_last.
Qed.

Lemma filter_none {A : Type} (P : A -> Prop) `{!forall x, Decision (P x)} (l : list A) :
  (forall x, x ∈ l -> ~ P x) -> filter P l = [].
Proof.
  induction l as [| x l IH]; intros Hl; [reflexivity |].
  rewrite filter_cons_False by (apply Hl; apply list_elem_of_here).
  apply IH. intros y Hy. apply Hl. apply list_elem_of_further. exact Hy.
Qed.

Section WithGenerator.

Variable G : Type.
Variable np_random_random : nat -> G -> list float * G.

#[local] Abbreviation K := (@Build_Connection G).
#[local] Abbreviation rules :=
  ({[ "my_pes" := PES None; "my_bcm" := BCM (Some (decimal 1 10)) ]}
     : gmap string LearningRuleType).
#[local] Abbreviation model := (ch6_learn.model G np_random_random).
#[local] Abbreviation locals := (ch6_learn.locals G np_random_random).
#[local] Abbreviation with_model := (ch6_learn.with_model G np_random_random).

Lemma rules_my_pes : rules !! "my_pes" = Some (PES None).
Proof. vm_compute. reflexivity. Qed.

Lemma bind_Some {A B : Type} (m : Build G A) (f : A -> Build G B) net a net' :
  m net = Some (a, net') -> (m ≫= f) net = f a net'.
Proof. intros H. unfold mbind, Build_bind. rewrite H. reflexivity. Qed.

(** Runs the next statement of the block. *)
Ltac run_step :=
  erewrite bind_Some by
    (cbv [new_Ensemble new_Connection new_Node set_learning_rule_type learning_rule
          neurons get_n_neurons];
     cbn [label seed ensembles nodes connections];
     rewrite ?lookup_last, ?lookup_before_last;
     cbn [nengo.pre nengo.post nengo.function nengo.transform nengo.synapse nengo.solver
          nengo.learning_rule_type n_neurons];
     rewrite ?insert_last, ?rules_my_pes;
     reflexivity).

(** The block, statement by statement, from an arbitrary network. *)
Lemma with_model_anywhere (net : Network G) :
  let e := length (ensembles net) in
  let n := length (nodes net) in
  let c := length (connections net) in
  with_model net =
    Some ({| pre := EnsembleRef e; post := EnsembleRef (e + 1);
             error := EnsembleRef (e + 2); actual_error := EnsembleRef (e + 3);
             conn := ConnectionRef (c + 4); error_conn := ConnectionRef (c + 5);
             input := NodeRef n; inhibit := NodeRef (n + 1) |},
          {| label := label net; seed := seed net;
             ensembles := ensembles net ++
               [ Build_Ensemble 50 1 None; Build_Ensemble 50 1 None;
                 Build_Ensemble 100 1 None; Build_Ensemble 100 1 (Some Direct) ];
             nodes := nodes net ++
               [ Build_Node (OutProcess (WhiteSignal 30 10));
                 Build_Node (OutFunction inhib) ];
             connections := connections net ++
               [ K (EnsembleRef e) (EnsembleRef (e + 3)) None (Some (Scalar (-1)))
                   None None None;
                 K (EnsembleRef (e + 1)) (EnsembleRef (e + 3)) None (Some (Scalar 1))
                   None None None;
                 K (EnsembleRef e) (EnsembleRef (e + 2)) None (Some (Scalar (-1)))
                   (Some (decimal 2 2)) None None;
                 K (EnsembleRef (e + 1)) (EnsembleRef (e + 2)) None (Some (Scalar 1))
                   (Some (decimal 2 2)) None None;
                 K (EnsembleRef e) (EnsembleRef (e + 1))
                   (Some (conn_function G np_random_random)) None None
                   (Some (LstsqL2 true)) (Some rules);
                 K (EnsembleRef (e + 2)) (LearningRuleRef (c + 4) "my_pes")
                   None None None None None;
                 K (NodeRef n) (EnsembleRef e) None None (Some (decimal 2 2)) None None;
                 K (NodeRef (n + 1)) (NeuronsRef (e + 2)) None
                   (Some (Matrix (replicate 100 [(-1)%Z]))) (Some (decimal 1 2))
                   None None ] |}).
Proof.
  destruct net as [lbl sd E N C]. cbn zeta.
  unfold ch6_learn.with_model.
  do 18 run_step.
  unfold mret, Build_ret. cbn [label seed ensembles nodes connections].
  rewrite <- !app_assoc. cbn [app].
  rewrite !length_app. cbn [length].
  reflexivity.
Qed.

(** Takes the result of a run apart without touching the terms. *)
Ltac run_in H :=
  rewrite with_model_anywhere in H;
  apply (inj Some), pair_equal_spec in H.

(** X2: from any network the block runs without raising, keeps the label,
    the seed and every object that was there, and appends the four
    ensembles, two nodes and eight connections it builds in an empty
    network, each reference moved on by the number of objects of its kind
    that were there before. *)
Theorem X2_block_runs_in_any_network (net : Network G) :
  let e := length (ensembles net) in
  let n := length (nodes net) in
  let c := length (connections net) in
  with_model net =
    Some (shift_locals e n c locals,
          {| label := label net; seed := seed net;
             ensembles := ensembles net ++ ensembles model;
             nodes := nodes net ++ nodes model;
             connections :=
               connections net ++ (shift_connection e n c <$> connections model) |}).
Proof.
  cbn zeta. rewrite with_model_anywhere.
  rewrite ch6_learn_facts.the_connections, ch6_learn_facts.the_ensembles,
    ch6_learn_facts.the_nodes, ch6_learn_facts.the_variables.
  unfold shift_locals. cbn [fmap list_fmap]. unfold shift_connection.
  cbn [shift_obj
       nengo.pre nengo.post nengo.function nengo.transform nengo.synapse nengo.solver
       nengo.learning_rule_type
       ch6_learn.pre ch6_learn.post ch6_learn.error ch6_learn.actual_error
       ch6_learn.conn ch6_learn.error_conn ch6_learn.input ch6_learn.inhibit].
  rewrite !Nat.add_0_r. reflexivity.
Qed.

(** *** References in a network that grows *)

Lemma registered_app (net : Network G) lbl sd E N C (o : Obj) :
  registered net o ->
  registered {| label := lbl; seed := sd; ensembles := ensembles net ++ E;
                nodes := nodes net ++ N; connections := connections net ++ C |} o.
Proof.
  destruct o as [i | i | i | i | k key]; cbn [registered ensembles nodes connections];
    rewrite ?length_app; try lia.
  intros (c & r & Hc & Hr & Hkey). exists c, r.
  split; [| split; assumption].
  rewrite lookup_app_l by (apply lookup_lt_Some in Hc; exact Hc). exact Hc.
Qed.

Lemma incoming_app_fresh (net : Network G) lbl sd E N C (o : Obj) :
  (forall k, k ∈ C -> nengo.post k <> o) ->
  incoming {| label := lbl; seed := sd; ensembles := E; nodes := N;
              connections := connections net ++ C |} o = incoming net o.
Proof.
  intros H. unfold incoming. cbn [connections].
  rewrite filter_app, (filter_none _ C) by exact H. apply app_nil_r.
Qed.

Lemma outgoing_app_fresh (net : Network G) lbl sd E N C (o : Obj) :
  (forall k, k ∈ C -> nengo.pre k <> o) ->
  outgoing {| label := lbl; seed := sd; ensembles := E; nodes := N;
              connections := connections net ++ C |} o = outgoing net o.
Proof.
  intros H. unfold outgoing. cbn [connections].
  rewrite filter_app, (filter_none _ C) by exact H. apply app_nil_r.
Qed.

Lemma into_new_object (net : Network G) lbl sd E N C (o : Obj) :
  well_formed net -> ~ registered net o ->
  incoming {| label := lbl; seed := sd; ensembles := E; nodes := N;
              connections := connections net ++ C |} o =
  filter (fun k => nengo.post k = o) C.
Proof.
  intros Hwf Ho. unfold incoming. cbn [connections].
  rewrite filter_app, (filter_none _ (connections net)); [reflexivity |].
  intros k Hk Heq. apply Ho. rewrite <- Heq. apply (Hwf k Hk).
Qed.

(** An object that is registered is none of those the block creates. *)
Ltac not_registered Hreg :=
  let Heq := fresh "Heq" in
  cbn [nengo.pre nengo.post]; intros Heq; rewrite <- Heq in Hreg;
  cbn [registered] in Hreg;
  first [ lia
        | destruct Hreg as (? & ? & Hreg & _); apply lookup_lt_Some in Hreg; lia ].

Ltac each_new_connection Hk :=
  repeat (apply elem_of_cons in Hk; destruct Hk as [-> | Hk]);
  [.. | apply elem_of_nil in Hk; destruct Hk].

(** Keeps the connections of an explicit list that end in the given object. *)
Ltac pick_connections :=
  repeat first
    [ rewrite filter_cons_True by reflexivity
    | rewrite filter_cons_False by
        (let Hx := fresh "Hx" in
         cbn [nengo.pre nengo.post]; intros Hx;
         first [discriminate Hx | injection Hx; lia]) ];
  rewrite filter_nil.

Lemma with_model_incoming (net net' : Network G) (v : Locals) (o : Obj) :
  with_model net = Some (v, net') -> registered net o ->
  incoming net' o = incoming net o.
Proof.
  intros Hrun Hreg. run_in Hrun. destruct Hrun as [_ <-].
  apply incoming_app_fresh. intros k Hk. each_new_connection Hk; not_registered Hreg.
Qed.

Lemma with_model_outgoing (net net' : Network G) (v : Locals) (o : Obj) :
  with_model net = Some (v, net') -> registered net o ->
  outgoing net' o = outgoing net o.
Proof.
  intros Hrun Hreg. run_in Hrun. destruct Hrun as [_ <-].
  apply outgoing_app_fresh. intros k Hk. each_new_connection Hk; not_registered Hreg.
Qed.

Lemma with_model_well_formed (net net' : Network G) (v : Locals) :
  well_formed net -> with_model net = Some (v, net') -> well_formed net'.
Proof.
  intros Hwf Hrun. run_in Hrun. destruct Hrun as [_ <-].
  intros k Hk. cbn [connections] in Hk. apply elem_of_app in Hk as [Hk | Hk].
  - destruct (Hwf k Hk) as [Hpre Hpost].
    split; apply registered_app; assumption.
  - each_new_connection Hk; cbn [nengo.pre nengo.post]; split;
      first [ cbn [registered ensembles nodes connections];
              rewrite length_app; cbn [length]; lia
            | cbn [registered connections];
              eexists _, _; split; [| split];
              [ rewrite lookup_app_r by lia;
                replace (length (connections net) + 4 - length (connections net))
                  with 4 by lia;
                reflexivity
              | reflexivity
              | rewrite rules_my_pes; eexists; reflexivity ] ].
Qed.

Lemma with_model_registers (net net' : Network G) (v : Locals) :
  with_model net = Some (v, net') ->
  Forall (registered net')
    [ pre v; post v; error v; actual_error v; conn v; error_conn v; input v; inhibit v ].
Proof.
  intros Hrun. run_in Hrun. destruct Hrun as [<- <-].
  cbn [ch6_learn.pre ch6_learn.post ch6_learn.error ch6_learn.actual_error
       ch6_learn.conn ch6_learn.error_conn ch6_learn.input ch6_learn.inhibit].
  repeat (apply Forall_cons; split); [.. | apply Forall_nil; exact I];
    cbn [registered ensembles nodes connections];
    rewrite length_app; cbn [length]; lia.
Qed.

Lemma error_signal_anywhere (net net' : Network G) (v : Locals) (val : Obj -> R) :
  well_formed net -> with_model net = Some (v, net') ->
  decoded_input net' val (error v) = Some (val (post v) - val (pre v))%R.
Proof.
  intros Hwf Hrun. run_in Hrun. destruct Hrun as [<- <-].
  cbn [ch6_learn.pre ch6_learn.post ch6_learn.error]. unfold decoded_input.
  rewrite into_new_object by (first [exact Hwf | cbn; lia]).
  pick_connections. cbn. f_equal. lra.
Qed.

Lemma actual_error_signal_anywhere (net net' : Network G) (v : Locals) (val : Obj -> R) :
  well_formed net -> with_model net = Some (v, net') ->
  decoded_input net' val (actual_error v) = Some (val (post v) - val (pre v))%R.
Proof.
  intros Hwf Hrun. run_in Hrun. destruct Hrun as [<- <-].
  cbn [ch6_learn.pre ch6_learn.post ch6_learn.actual_error]. unfold decoded_input.
  rewrite into_new_object by (first [exact Hwf | cbn; lia]).
  pick_connections. cbn. f_equal. lra.
Qed.

Lemma inhibited_neuron_anywhere
    (net net' : Network G) (v : Locals) (val : Obj -> R) (j i : nat) :
  well_formed net -> with_model net = Some (v, net') ->
  error v = EnsembleRef j -> i < 100 ->
  neuron_input net' val (NeuronsRef j) i = Some (- val (inhibit v))%R.
Proof.
  intros Hwf Hrun Hj Hi. run_in Hrun. destruct Hrun as [<- <-].
  cbn [ch6_learn.error ch6_learn.inhibit] in *.
  injection Hj as <-. unfold neuron_input.
  rewrite into_new_object by (first [exact Hwf | cbn; lia]).
  pick_connections.
  cbn [fmap list_fmap delivered_to_neuron nengo.function nengo.transform nengo.pre].
  rewrite lookup_replicate_2 by exact Hi.
  cbn. f_equal. lra.
Qed.

Lemma with_model_sizes (net net' : Network G) (v : Locals) :
  with_model net = Some (v, net') ->
  v = shift_locals (length (ensembles net)) (length (nodes net))
        (length (connections net)) locals /\
  length (ensembles net') = length (ensembles net) + 4 /\
  length (nodes net') = length (nodes net) + 2 /\
  length (connections net') = length (connections net) + 8.
Proof.
  intros Hrun. run_in Hrun. destruct Hrun as [<- <-].
  cbn [ensembles nodes connections].
  rewrite !length_app, ch6_learn_facts.the_variables.
  unfold shift_locals.
  cbn [shift_obj length
       ch6_learn.pre ch6_learn.post ch6_learn.error ch6_learn.actual_error
       ch6_learn.conn ch6_learn.error_conn ch6_learn.input ch6_learn.inhibit].
  rewrite !Nat.add_0_r. repeat split.
Qed.

(** X3: if every connection of a network starts and ends at an object of
    that network, the same holds after the block has run in it, and the
    eight variables of the cell are bound to objects of the new network
    (the learning rule the error connection ends at included). *)
Theorem X3_block_keeps_references_resolved (net net' : Network G) (v : Locals) :
  well_formed net ->
  with_model net = Some (v, net') ->
  well_formed net' /\
  Forall (registered net')
    [ pre v; post v; error v; actual_error v; conn v; error_conn v; input v; inhibit v ].
Proof.
  intros Hwf Hrun. split.
  - exact (with_model_well_formed net net' v Hwf Hrun).
  - exact (with_model_registers net net' v Hrun).
Qed.

(** X4: the block leaves what was in the network as it was.  For an object
    [o] that was there before, the connections into [o] and out of [o], the
    value [o] is asked to represent and the input of its neurons are the
    same after the block as before; and every ensemble, node and connection
    is still found at its index, unchanged (so no rule was attached to an
    older connection). *)
Theorem X4_block_leaves_existing_objects_alone
    (net net' : Network G) (v : Locals) (o : Obj) :
  with_model net = Some (v, net') ->
  registered net o ->
  incoming net' o = incoming net o /\
  outgoing net' o = outgoing net o /\
  (forall val : Obj -> R, decoded_input net' val o = decoded_input net val o) /\
  (forall (val : Obj -> R) (i : nat),
     neuron_input net' val o i = neuron_input net val o i) /\
  (forall i k, connections net !! i = Some k -> connections net' !! i = Some k) /\
  (forall i x, ensembles net !! i = Some x -> ensembles net' !! i = Some x) /\
  (forall i x, nodes net !! i = Some x -> nodes net' !! i = Some x).
Proof.
  intros Hrun Hreg.
  pose proof (with_model_incoming net net' v o Hrun Hreg) as Hin.
  split; [exact Hin |].
  split; [exact (with_model_outgoing net net' v o Hrun Hreg) |].
  split; [intros val; unfold decoded_input; rewrite Hin; reflexivity |].
  split; [intros val i; unfold neuron_input; rewrite Hin; reflexivity |].
  run_in Hrun. destruct Hrun as [_ <-].
  cbn [connections ensembles nodes].
  repeat split; intros i x Hx;
    (rewrite lookup_app_l by (apply lookup_lt_Some in Hx; exact Hx)); exact Hx.
Qed.

(** X5: in any network whose connections start and end at its own objects,
    the populations the block adds are wired as in the empty network: the
    new [error] and [actual_error] are asked to represent post minus pre of
    the new [pre] and [post], and the connections into the neurons of the
    new [error] put out, at each of the 100 neurons, minus the value of the
    new inhibit node; nothing that was in the network adds to either.  (What
    a neuron's input then is, after the synapse and the gain, is the
    framework's.) *)
Theorem X5_block_is_wired_the_same_in_any_network
    (net net' : Network G) (v : Locals) (val : Obj -> R) :
  well_formed net ->
  with_model net = Some (v, net') ->
  decoded_input net' val (error v) = Some (val (post v) - val (pre v))%R /\
  decoded_input net' val (actual_error v) = Some (val (post v) - val (pre v))%R /\
  (forall j i, error v = EnsembleRef j -> i < 100 ->
     neuron_input net' val (NeuronsRef j) i = Some (- val (inhibit v))%R).
Proof.
  intros Hwf Hrun. split; [| split].
  - exact (error_signal_anywhere net net' v val Hwf Hrun).
  - exact (actual_error_signal_anywhere net net' v val Hwf Hrun).
  - intros j i Hj Hi. exact (inhibited_neuron_anywhere net net' v val j i Hwf Hrun Hj Hi).
Qed.

(** X6: running the block twice in a row gives two models side by side.
    Each copy's error population is asked to represent post minus pre of its
    own copy; the first copy's inhibit node and [post] keep the connections
    they had; the variables of the two runs are bound to different objects;
    and the network has grown by 8 ensembles, 4 nodes and 16 connections,
    all references resolved. *)
Theorem X6_two_copies_of_the_block
    (net n1 n2 : Network G) (v1 v2 : Locals) (val : Obj -> R) :
  well_formed net ->
  with_model net = Some (v1, n1) ->
  with_model n1 = Some (v2, n2) ->
  decoded_input n2 val (error v1) = Some (val (post v1) - val (pre v1))%R /\
  decoded_input n2 val (error v2) = Some (val (post v2) - val (pre v2))%R /\
  outgoing n2 (inhibit v1) = outgoing n1 (inhibit v1) /\
  incoming n2 (post v1) = incoming n1 (post v1) /\
  (pre v1 <> pre v2 /\ post v1 <> post v2 /\ error v1 <> error v2 /\
   conn v1 <> conn v2 /\ inhibit v1 <> inhibit v2) /\
  well_formed n2 /\
  length (ensembles n2) = length (ensembles net) + 8 /\
  length (nodes n2) = length (nodes net) + 4 /\
  length (connections n2) = length (connections net) + 16.
Proof.
  intros Hwf H1 H2.
  pose proof (with_model_well_formed net n1 v1 Hwf H1) as Hwf1.
  pose proof (with_model_well_formed n1 n2 v2 Hwf1 H2) as Hwf2.
  pose proof (with_model_registers net n1 v1 H1) as Hreg1.
  rewrite !Forall_cons in Hreg1.
  destruct Hreg1 as (_ & Rpost & Rerr & _ & _ & _ & _ & Rinh & _).
  split.
  { unfold decoded_input.
    rewrite (with_model_incoming n1 n2 v2 _ H2 Rerr).
    exact (error_signal_anywhere net n1 v1 val Hwf H1). }
  split; [exact (error_signal_anywhere n1 n2 v2 val Hwf1 H2) |].
  split; [exact (with_model_outgoing n1 n2 v2 _ H2 Rinh) |].
  split; [exact (with_model_incoming n1 n2 v2 _ H2 Rpost) |].
  destruct (with_model_sizes net n1 v1 H1) as (-> & Le1 & Ln1 & Lc1).
  destruct (with_model_sizes n1 n2 v2 H2) as (-> & Le2 & Ln2 & Lc2).
  split.
  { rewrite ch6_learn_facts.the_variables. unfold shift_locals.
    cbn [shift_obj ch6_learn.pre ch6_learn.post ch6_learn.error ch6_learn.conn
         ch6_learn.inhibit].
    repeat split; intros Heq; injection Heq; lia. }
  split; [exact Hwf2 |].
  repeat split; lia.
Qed.

(** *** Evaluations and draws *)

Lemma eval_function_app (f : Callable (World := G)) (xs ys : list (list float)) (g : G) :
  eval_function f (xs ++ ys) g =
    (fst (eval_function f xs g) ++ fst (eval_function f ys (snd (eval_function f xs g))),
     snd (eval_function f ys (snd (eval_function f xs g)))).
Proof.
  revert g. induction xs as [| x xs IH]; intros g.
  - cbn. destruct (eval_function f ys g). reflexivity.
  - cbn [app eval_function]. destruct (f x g) as [y g1]. rewrite IH.
    destruct (eval_function f xs g1) as [zs g2]. cbn [fst snd].
    reflexivity.
Qed.

(** X7: evaluating the function of [conn] at a list of points gives one
    target per point and leaves the global generator exactly one
    [np.random.random(1)] call further on per point; evaluating at a second
    list afterwards continues from there, so the two evaluations together
    are the evaluation at the concatenated list. *)
Theorem X7_one_draw_per_evaluation (xs ys : list (list float)) (g : G) :
  let f := conn_function G np_random_random in
  let draw (s : G) := snd (np_random_random 1 s) in
  length (fst (eval_function f xs g)) = length xs /\
  snd (eval_function f xs g) = Nat.iter (length xs) draw g /\
  eval_function f (xs ++ ys) g =
    (fst (eval_function f xs g) ++ fst (eval_function f ys (Nat.iter (length xs) draw g)),
     Nat.iter (length xs + length ys) draw g).
Proof.
  intros f draw.
  assert (Hlen : forall zs s, length (fst (eval_function f zs s)) = length zs).
  { induction zs as [| z zs IH]; intros s; [reflexivity |].
    subst f. rewrite ch6_learn_facts.eval_function_cons. cbn [fst length].
    rewrite IH. reflexivity. }
  assert (Hst : forall zs s, snd (eval_function f zs s) = Nat.iter (length zs) draw s).
  { induction zs as [| z zs IH]; intros s; [reflexivity |].
    subst f. rewrite ch6_learn_facts.eval_function_cons. cbn [snd length].
    rewrite IH. fold (draw s). rewrite Nat.iter_succ_r. reflexivity. }
  split; [apply Hlen |]. split; [apply Hst |].
  rewrite eval_function_app, !Hst.
  rewrite Nat.add_comm, Nat.iter_add. reflexivity.
Qed.

End WithGenerator.

(** X1: [inhib] is a rising step.  Its value is 0.0 or 2.0 on every float
    (NaN and the infinities included), and on finite times it never goes
    down: if [t1 <= t2] then [inhib(t1) <= inhib(t2)], so once the node puts
    out 2.0 it does so at every later time, and while it puts out 0.0 it did
    so at every earlier time. *)
Theorem X1_inhib_is_a_rising_step :
  (forall t : float, inhib t = decimal 0 1 \/ inhib t = decimal 20 1) /\
  (forall t1 t2 : float,
     valid t1 = true -> is_finite t1 = true ->
     valid t2 = true -> is_finite t2 = true ->
     (to_R t1 <= to_R t2)%R ->
     (to_R (inhib t1) <= to_R (inhib t2))%R /\
     (inhib t1 = decimal 20 1 -> inhib t2 = decimal 20 1) /\
     (inhib t2 = decimal 0 1 -> inhib t1 = decimal 0 1)).
Proof.
  split.
  - intros t. unfold inhib. destruct (gtb t (decimal 150 1)); [right | left]; reflexivity.
  - intros t1 t2 Hv1 Hf1 Hv2 Hf2 Hle.
    assert (Hne : decimal 20 1 <> decimal 0 1) by (vm_compute; discriminate).
    destruct (Rlt_le_dec 15 (to_R t1)) as [H1 | H1];
      destruct (Rlt_le_dec 15 (to_R t2)) as [H2 | H2]; try lra.
    + rewrite (ch6_learn_facts.inhib_on t1 Hv1 Hf1 H1),
        (ch6_learn_facts.inhib_on t2 Hv2 Hf2 H2).
      split; [lra |]. split; [reflexivity | intros H; destruct (Hne H)].
    + rewrite (ch6_learn_facts.inhib_off t1 Hv1 Hf1 H1),
        (ch6_learn_facts.inhib_on t2 Hv2 Hf2 H2).
      rewrite pyfloat_facts.to_R_two, pyfloat_facts.to_R_zero.
      split; [lra |]. split; [reflexivity | intros H; destruct (Hne H)].
    + rewrite (ch6_learn_facts.inhib_off t1 Hv1 Hf1 H1),
        (ch6_learn_facts.inhib_off t2 Hv2 Hf2 H2).
      split; [lra |]. split; [intros H; symmetry in H; destruct (Hne H) | reflexivity].
Qed.

(** *** The statements at a concrete generator and network *)

Lemma to_R_fifteen : to_R (decimal 150 1) = 15%R.
Proof.
  rewrite pyfloat_facts.fifteen. cbn [to_R cond_Zopp].
  pose proof (pyfloat_facts.scaled_back 15 49) as H.
  change (- Z.of_nat 49)%Z with (-49)%Z in H.
  change (15 * 2 ^ Z.of_nat 49)%Z with 8444249301319680%Z in H.
  exact H.
Qed.

Lemma empty_well_formed : well_formed (@new_Network Z "Learning" 7).
Proof. intros k Hk. cbn in Hk. apply elem_of_nil in Hk. destruct Hk. Qed.

Lemma first_run :
  with_model Z lcg.random (new_Network "Learning" 7) =
    Some (locals Z lcg.random, model Z lcg.random).
Proof.
  pose proof (ch6_learn_facts.run_cell_ok Z lcg.random) as H.
  unfold run_cell in H. exact H.
Qed.

(** From 15 s to 20 s the node's output does not go down. *)
Lemma X1_witness_15_to_20_seconds :
  valid (decimal 150 1) = true /\ is_finite (decimal 150 1) = true /\
  valid (decimal 200 1) = true /\ is_finite (decimal 200 1) = true /\
  (to_R (decimal 150 1) <= to_R (decimal 200 1))%R /\
  (to_R (inhib (decimal 150 1)) <= to_R (inhib (decimal 200 1)))%R.
Proof.
  assert (Hv1 : valid (decimal 150 1) = true) by (vm_compute; reflexivity).
  assert (Hf1 : is_finite (decimal 150 1) = true) by (vm_compute; reflexivity).
  assert (Hv2 : valid (decimal 200 1) = true) by (vm_compute; reflexivity).
  assert (Hf2 : is_finite (decimal 200 1) = true) by (vm_compute; reflexivity).
  assert (Hle : (to_R (decimal 150 1) <= to_R (decimal 200 1))%R)
    by (rewrite to_R_fifteen, pyfloat_facts.to_R_twenty; lra).
  repeat (split; [assumption |]).
  exact (proj1 (proj2 X1_inhib_is_a_rising_step _ _ Hv1 Hf1 Hv2 Hf2 Hle)).
Defined.

(** The empty network is well formed, and so is the model built in it. *)
Lemma X3_witness_model :
  well_formed (@new_Network Z "Learning" 7) /\
  well_formed (model Z lcg.random).
Proof.
  split; [exact empty_well_formed |].
  exact (proj1 (X3_block_keeps_references_resolved Z lcg.random
                  (new_Network "Learning" 7) (model Z lcg.random) (locals Z lcg.random)
                  empty_well_formed first_run)).
Defined.

(** The block run a second time, in the model: [error] of the first run
    keeps its incoming connections. *)
Lemma X4_witness_second_run :
  let net := model Z lcg.random in
  let net' := match with_model Z lcg.random net with
              | Some (_, n) => n
              | None => net
              end in
  registered net (EnsembleRef 2) /\
  incoming net' (EnsembleRef 2) = incoming net (EnsembleRef 2).
Proof.
  intros net net'.
  assert (Hreg : registered net (EnsembleRef 2)).
  { subst net. cbn [registered]. rewrite ch6_learn_facts.the_ensembles. cbn [length]. lia. }
  split; [exact Hreg |]. subst net'.
  destruct (with_model Z lcg.random net) as [[v n] |] eqn:Hrun.
  - exact (proj1 (X4_block_leaves_existing_objects_alone Z lcg.random net n v _ Hrun Hreg)).
  - reflexivity.
Defined.

(** The block run a second time, in the model, which holds 4 ensembles, 2
    nodes and 8 connections already.  The second [pre] is at 1, the second
    [post] at 3 and the second inhibit node at 2, everything of the first
    run at 7: the second [error] is asked to represent 3 - 1, and the
    connection into its neurons puts out -2 at neuron 0. *)
Lemma X5_witness_second_run :
  let n1 := model Z lcg.random in
  let val (o : Obj) : R :=
    match o with
    | EnsembleRef 4 => 1%R
    | EnsembleRef 5 => 3%R
    | NodeRef 3 => 2%R
    | _ => 7%R
    end in
  well_formed n1 /\
  length (connections n1) = 8 /\
  match with_model Z lcg.random n1 with
  | Some (v, n2) =>
      (pre v = EnsembleRef 4 /\ post v = EnsembleRef 5 /\
       error v = EnsembleRef 6 /\ inhibit v = NodeRef 3) /\
      decoded_input n2 val (error v) = Some (3 - 1)%R /\
      neuron_input n2 val (NeuronsRef 6) 0 = Some (- (2))%R
  | None => False
  end.
Proof.
  intros n1 val.
  assert (Hwf : well_formed n1)
    by exact (with_model_well_formed Z lcg.random _ _ _ empty_well_formed first_run).
  split; [exact Hwf |].
  split; [subst n1; rewrite ch6_learn_facts.the_connections; reflexivity |].
  destruct (with_model Z lcg.random n1) as [[v n2] |] eqn:Hrun.
  - destruct (with_model_sizes Z lcg.random n1 n2 v Hrun) as (Hv & _).
    destruct (X5_block_is_wired_the_same_in_any_network Z lcg.random n1 n2 v val Hwf Hrun)
      as (Herr & _ & Hneu).
    subst n1.
    rewrite ch6_learn_facts.the_ensembles, ch6_learn_facts.the_nodes,
      ch6_learn_facts.the_connections, ch6_learn_facts.the_variables in Hv.
    unfold shift_locals in Hv.
    cbn [shift_obj length Nat.add
         ch6_learn.pre ch6_learn.post ch6_learn.error ch6_learn.actual_error
         ch6_learn.conn ch6_learn.error_conn ch6_learn.input ch6_learn.inhibit] in Hv.
    assert (Hpre : pre v = EnsembleRef 4) by (rewrite Hv; reflexivity).
    assert (Hpost : post v = EnsembleRef 5) by (rewrite Hv; reflexivity).
    assert (Herror : error v = EnsembleRef 6) by (rewrite Hv; reflexivity).
    assert (Hinhibit : inhibit v = NodeRef 3) by (rewrite Hv; reflexivity).
    split; [repeat split; assumption |].
    split.
    + rewrite Herr, Hpost, Hpre. reflexivity.
    + rewrite (Hneu 6 0 Herror ltac:(lia)), Hinhibit. reflexivity.
  - subst n1. rewrite with_model_anywhere in Hrun. discriminate Hrun.
Defined.

(** The block run twice from the empty network: 16 connections. *)
Lemma X6_witness_two_runs :
  let n1 := model Z lcg.random in
  let n2 := match with_model Z lcg.random n1 with
            | Some (_, n) => n
            | None => n1
            end in
  well_formed (@new_Network Z "Learning" 7) /\
  is_Some (with_model Z lcg.random n1) /\
  length (connections n2) = 0 + 16.
Proof.
  intros n1 n2. split; [exact empty_well_formed |]. subst n2.
  destruct (with_model Z lcg.random n1) as [[v n] |] eqn:Hrun.
  - split; [eexists; reflexivity |].
    exact (proj2 (proj2 (proj2 (proj2 (proj2 (proj2 (proj2 (proj2
             (X6_two_copies_of_the_block Z lcg.random
                (new_Network "Learning" 7) n1 n (locals Z lcg.random) v (fun _ => 0%R)
                empty_well_formed first_run Hrun))))))))).
  - exfalso. subst n1. rewrite with_model_anywhere in Hrun. discriminate Hrun.
Defined.

End ch6_learn_anywhere.
